(** * MVLib optional odometry integrations: the pose-getter bridge

    Shallow embedding of the two optional headers of MVLib

      - [mvlib/Optional/logger_optional_ez-template.hpp]  (EZ-Template)
      - the sibling header that includes [lemlib/api.hpp]  (LemLib)

    Each header guards itself with the macro [_MVLIB_OPTIONAL_USED] and
    declares one overload of [mvlib::setOdom], which hands the logger a
    lambda that samples the chassis through a captured raw pointer.

    The development has three layers:
      - the C++ values the lambdas handle (scalars, poses, raw pointers);
      - the lambdas themselves, written as programs over the member
        functions they call on the chassis, with an interpreter that runs
        them against a store of chassis objects;
      - the preprocessor directives of the two headers, with an
        interpreter for one translation unit and for a build made of
        several translation units. *)

From Stdlib Require Import ZArith String Ascii List Bool.
From Stdlib Require Import Floats.SpecFloat.
From stdpp Require Import base option gmap strings list.

Local Open Scope string_scope.
#[local] Set Warnings "-register-all".

(** ** Values *)

(** The sources name three families of scalar types without declaring
    them: what the EZ-Template accessors return, the fields of
    [lemlib::Pose], and the fields of [mvlib::Pose].  The only scalar type
    the sources spell out is [float] (the locals [xIn], [yIn], [thDeg]).
    The types, and the implicit conversions C++ inserts between them, are
    kept as an interface; the bridge does no arithmetic of its own. *)
Class Scalars : Type := {
  cfloat : Type;          (* C++ [float] *)
  ez_scalar : Type;       (* return type of [odom_x_get] and friends *)
  lemlib_scalar : Type;   (* type of [lemlib::Pose::x], [y], [theta] *)
  pose_scalar : Type;     (* type of the three fields of [mvlib::Pose] *)
  ez_to_float : ez_scalar -> cfloat;          (* [const float xIn = ...] *)
  float_to_pose : cfloat -> pose_scalar;      (* [Pose{xIn, yIn, thDeg}] *)
  lemlib_to_pose : lemlib_scalar -> pose_scalar  (* [Pose{p.x, p.y, p.theta}] *)
}.

(** Modelled from the spec: [mvlib::Pose] is declared in [mvlib/core.hpp],
    which is not part of the sources; the spec gives it as the value
    [{x, y, heading}], and both lambdas fill it positionally. *)
Record Pose `{Scalars} : Type := mkPose {
  x : pose_scalar;
  y : pose_scalar;
  heading : pose_scalar
}.

Arguments mkPose {_} x y heading.

(** [lemlib::Pose], as far as the LemLib lambda reads it: [p.x], [p.y],
    [p.theta]. *)
Record lemlib_Pose `{Scalars} : Type := mk_lemlib_Pose {
  lp_x : lemlib_scalar;
  lp_y : lemlib_scalar;
  lp_theta : lemlib_scalar
}.

Arguments mk_lemlib_Pose {_} lp_x lp_y lp_theta.

(** A raw pointer ([ez::Drive*], [lemlib::Chassis*]): null, or an address. *)
Definition loc : Type := positive.

Inductive ptr : Type :=
| nullptr
| addr (l : loc).

(** [!chassis] *)
Definition is_null (p : ptr) : bool :=
  match p with
  | nullptr => true
  | addr _ => false
  end.

(** ** The chassis objects

    The member functions of [ez::Drive] and [lemlib::Chassis] are third
    party code.  None of them is declared [const] in the sources, so each
    is taken as a function from the object's state to a result and the
    object's state afterwards. *)
Class Backends `{Scalars} : Type := {
  Drive : Type;
  odom_enabled : Drive -> bool * Drive;
  odom_x_get : Drive -> ez_scalar * Drive;
  odom_y_get : Drive -> ez_scalar * Drive;
  odom_theta_get : Drive -> ez_scalar * Drive;
  Chassis : Type;
  getPose : Chassis -> lemlib_Pose * Chassis
}.

(** The accessors are reads: they hand back the object as they found it. *)
Class ReadOnlyAccessors `{Backends} : Prop := {
  odom_enabled_ro : forall d, snd (odom_enabled d) = d;
  odom_x_get_ro : forall d, snd (odom_x_get d) = d;
  odom_y_get_ro : forall d, snd (odom_y_get d) = d;
  odom_theta_get_ro : forall d, snd (odom_theta_get d) = d;
  getPose_ro : forall c, snd (getPose c) = c
}.

Section Programs.
Context `{Backends}.

(** ** Programs over member-function calls *)

(** One constructor per member function the two lambdas call through the
    chassis pointer. *)
Inductive action : Type :=
| OdomEnabled (chassis : ptr)
| OdomXGet (chassis : ptr)
| OdomYGet (chassis : ptr)
| OdomThetaGet (chassis : ptr)
| GetPose (chassis : ptr).

Definition result (a : action) : Type :=
  match a with
  | OdomEnabled _ => bool
  | OdomXGet _ | OdomYGet _ | OdomThetaGet _ => ez_scalar
  | GetPose _ => lemlib_Pose
  end.

Inductive prog (T : Type) : Type :=
| ret (v : T)
| act (a : action) (k : result a -> prog T).

Arguments ret {T} v.
Arguments act {T} a k.

Fixpoint bind {A B : Type} (m : prog A) (f : A -> prog B) : prog B :=
  match m with
  | ret v => f v
  | act a k => act a (fun r => bind (k r) f)
  end.

Definition call (a : action) : prog (result a) := act a ret.

(** ** Running a program *)

(** The objects the embedding application owns, by address. *)
Record world : Type := mkWorld {
  drives : gmap loc Drive;
  chassis_objs : gmap loc Chassis
}.

(** How a call ends: it returns, or the pointer did not lead to an object
    (null or dangling: undefined behaviour in C++, a fault here). *)
Inductive outcome (T : Type) : Type :=
| Returned (v : T)
| Fault.

Arguments Returned {T} v.
Arguments Fault {T}.

Definition on_drive {R : Type} (m : Drive -> R * Drive) (p : ptr) (w : world)
  : outcome R * world :=
  match p with
  | nullptr => (Fault, w)
  | addr l =>
      match drives w !! l with
      | None => (Fault, w)
      | Some d =>
          let '(r, d') := m d in
          (Returned r, mkWorld (<[l := d']> (drives w)) (chassis_objs w))
      end
  end.

Definition on_chassis {R : Type} (m : Chassis -> R * Chassis) (p : ptr) (w : world)
  : outcome R * world :=
  match p with
  | nullptr => (Fault, w)
  | addr l =>
      match chassis_objs w !! l with
      | None => (Fault, w)
      | Some c =>
          let '(r, c') := m c in
          (Returned r, mkWorld (drives w) (<[l := c']> (chassis_objs w)))
      end
  end.

Definition perform (a : action) : world -> outcome (result a) * world :=
  match a as a0 return world -> outcome (result a0) * world with
  | OdomEnabled p => on_drive odom_enabled p
  | OdomXGet p => on_drive odom_x_get p
  | OdomYGet p => on_drive odom_y_get p
  | OdomThetaGet p => on_drive odom_theta_get p
  | GetPose p => on_chassis getPose p
  end.

(** What one run of a program yields: how it ended, the store afterwards,
    and the calls it made, in order. *)
Record run_result (T : Type) : Type := mkRun {
  rr_outcome : outcome T;
  rr_world : world;
  rr_calls : list action
}.

Arguments mkRun {T} _ _ _.
Arguments rr_outcome {T} _.
Arguments rr_world {T} _.
Arguments rr_calls {T} _.

Fixpoint run {T : Type} (p : prog T) (w : world) : run_result T :=
  match p with
  | ret v => mkRun (Returned v) w []
  | act a k =>
      match perform a w with
      | (Returned r, w') =>
          let rest := run (k r) w' in
          mkRun (rr_outcome rest) (rr_world rest) (a :: rr_calls rest)
      | (Fault, w') => mkRun Fault w' [a]
      end
  end.

End Programs.

Arguments ret {_ _} v.
Arguments act {_ _} a k.
Arguments Returned {_} v.
Arguments Fault {_}.
Arguments mkRun {_ _ _} _ _ _.
Arguments rr_outcome {_ _ _} _.
Arguments rr_world {_ _ _} _.
Arguments rr_calls {_ _ _} _.

#[global] Instance prog_mret `{Backends} : MRet prog := fun _ v => ret v.
#[global] Instance prog_mbind `{Backends} : MBind prog := fun _ _ f m => bind m f.

(** ** The logger's registration point *)

Section LoggerSlot.
Context `{Backends}.

(** [std::function<std::optional<Pose>()>]: a zero-argument callable; a
    call of it is a run of the program. *)
Definition PoseGetter : Type := prog (option Pose).

(** Modelled from the spec: class [Logger] and [Logger::setPoseGetter] are
    declared in [mvlib/core.hpp], which is not part of the sources.  The
    spec describes a registration point that accepts the callable and keeps
    it as the logger's pose-retrieval callback; an empty slot is a logger
    nothing was registered with. *)
Record Logger : Type := mkLogger {
  m_getPose : option PoseGetter
}.

Definition setPoseGetter (logger : Logger) (getter : PoseGetter) : prog Logger :=
  mret (mkLogger (Some getter)).

End LoggerSlot.

(** ** [logger_optional_ez-template.hpp] *)

Module EZTemplate.
Section Header.
Context `{Backends}.

(** The lambda [[chassis]() -> std::optional<Pose>].  The [||] of its first
    line evaluates [chassis->odom_enabled()] only when [chassis] is
    non-null. *)
Definition pose_getter (chassis : ptr) : PoseGetter :=
  unavailable ←
    (if is_null chassis then mret true
     else enabled ← call (OdomEnabled chassis); mret (negb enabled));
  if (unavailable : bool) then mret None
  else
    xr ← call (OdomXGet chassis);
    let xIn := ez_to_float xr in
    yr ← call (OdomYGet chassis);
    let yIn := ez_to_float yr in
    thr ← call (OdomThetaGet chassis);
    let thDeg := ez_to_float thr in
    mret (Some (mkPose (float_to_pose xIn) (float_to_pose yIn)
                       (float_to_pose thDeg))).

(** [inline void setOdom(Logger& logger, ez::Drive* chassis)]: the logger
    goes in and comes out. *)
Definition setOdom (logger : Logger) (chassis : ptr) : prog Logger :=
  setPoseGetter logger (pose_getter chassis).

End Header.
End EZTemplate.

(** ** The LemLib header *)

Module LemLib.
Section Header.
Context `{Backends}.

(** The lambda [[chassis]() -> std::optional<Pose>]: a null check, then
    [getPose()] and its three fields; no readiness flag is consulted. *)
Definition pose_getter (chassis : ptr) : PoseGetter :=
  if is_null chassis then mret None
  else
    p ← call (GetPose chassis);
    mret (Some (mkPose (lemlib_to_pose (lp_x p)) (lemlib_to_pose (lp_y p))
                       (lemlib_to_pose (lp_theta p)))).

(** [inline void setOdom(Logger &logger, lemlib::Chassis* chassis)] *)
Definition setOdom (logger : Logger) (chassis : ptr) : prog Logger :=
  setPoseGetter logger (pose_getter chassis).

End Header.
End LemLib.

(** ** The include guard: a preprocessor for the two headers *)

Inductive integration : Type :=
| ez_template
| lemlib.

#[global] Instance integration_eq_dec : EqDecision integration.
Proof. solve_decision. Defined.

#[global] Instance integration_countable : Countable integration.
Proof.
  refine (inj_countable' (fun i => match i with ez_template => false | lemlib => true end)
                         (fun b => if b then lemlib else ez_template) _).
  intros []; reflexivity.
Defined.

(** The directives the two headers are made of.  [SetOdomDecl i] stands for
    the block [namespace mvlib { ... setOdom ... }] of header [i];
    [Include path] for a library header pulled in from inside the guard. *)
Inductive directive : Type :=
| PragmaOnce
| Ifdef (m : string) (body : list directive)
| Ifndef (m : string) (body : list directive)
| Define (m : string)
| ErrorDirective (msg : string)
| Include (path : string)
| SetOdomDecl (i : integration).

Definition _MVLIB_OPTIONAL_USED : string := "_MVLIB_OPTIONAL_USED".

Definition guard_message : string :=
  "More than one type of Logger/Optional include used!".

(** The two header files, directive by directive. *)
Definition header (i : integration) : list directive :=
  match i with
  | ez_template =>
      [ PragmaOnce;
        Ifdef _MVLIB_OPTIONAL_USED [ ErrorDirective guard_message ];
        Ifndef _MVLIB_OPTIONAL_USED
          [ Define _MVLIB_OPTIONAL_USED;
            Include "mvlib/core.hpp";
            Include "EZ-Template/api.hpp";
            Include "<optional>";
            SetOdomDecl ez_template ] ]
  | lemlib =>
      [ PragmaOnce;
        Ifdef _MVLIB_OPTIONAL_USED [ ErrorDirective guard_message ];
        Ifndef _MVLIB_OPTIONAL_USED
          [ Define _MVLIB_OPTIONAL_USED;
            Include "mvlib/core.hpp";
            Include "lemlib/api.hpp";
            SetOdomDecl lemlib ] ]
  end.

(** What the preprocessor carries through one translation unit. *)
Record pp_state : Type := mkPP {
  defined : gset string;          (* macros defined so far *)
  once : gset integration;        (* headers under [#pragma once] already read *)
  library_headers : list string;  (* library headers pulled in, latest first *)
  declared : list integration     (* [setOdom] overloads declared, latest first *)
}.

Definition pp_start : pp_state := mkPP ∅ ∅ [] [].

(** An [#error]: the header it fired in and its text. *)
Record diagnostic : Type := mkDiag {
  diag_header : integration;
  diag_text : string
}.

Inductive pp_result : Type :=
| PPError (d : diagnostic)
| PPOk (s : pp_state).

Fixpoint pp_directive (file : integration) (d : directive) (s : pp_state)
  {struct d} : pp_result :=
  let pp_body :=
    fix pp_body (ds : list directive) (s : pp_state) {struct ds} : pp_result :=
      match ds with
      | [] => PPOk s
      | d' :: ds' =>
          match pp_directive file d' s with
          | PPError e => PPError e
          | PPOk s' => pp_body ds' s'
          end
      end in
  match d with
  | PragmaOnce =>
      PPOk (mkPP (defined s) ({[file]} ∪ once s) (library_headers s) (declared s))
  | Ifdef m body =>
      if decide (m ∈ defined s) then pp_body body s else PPOk s
  | Ifndef m body =>
      if decide (m ∈ defined s) then PPOk s else pp_body body s
  | Define m =>
      PPOk (mkPP ({[m]} ∪ defined s) (once s) (library_headers s) (declared s))
  | ErrorDirective msg => PPError (mkDiag file msg)
  | Include path =>
      PPOk (mkPP (defined s) (once s) (path :: library_headers s) (declared s))
  | SetOdomDecl i =>
      PPOk (mkPP (defined s) (once s) (library_headers s) (i :: declared s))
  end.

Fixpoint pp_directives (file : integration) (ds : list directive) (s : pp_state)
  : pp_result :=
  match ds with
  | [] => PPOk s
  | d :: ds' =>
      match pp_directive file d s with
      | PPError e => PPError e
      | PPOk s' => pp_directives file ds' s'
      end
  end.

(** [#include] of one of the two headers: skipped when the header was read
    before under its [#pragma once]. *)
Definition pp_include (i : integration) (s : pp_state) : pp_result :=
  if decide (i ∈ once s) then PPOk s else pp_directives i (header i) s.

Fixpoint pp_includes (includes : list integration) (s : pp_state) : pp_result :=
  match includes with
  | [] => PPOk s
  | i :: rest =>
      match pp_include i s with
      | PPError e => PPError e
      | PPOk s' => pp_includes rest s'
      end
  end.

(** A translation unit, as far as the guard sees it: the integration
    headers it includes, in order.  Macros start out undefined in every
    translation unit. *)
Definition pp_translation_unit (includes : list integration) : pp_result :=
  pp_includes includes pp_start.






(** ** A build of several translation units, and the start-up it yields *)

(** A call of one of the two [setOdom] overloads, with the pointer passed. *)
Inductive registration : Type :=
| RegisterEZ (chassis : ptr)
| RegisterLemLib (chassis : ptr).

Definition overload_of (r : registration) : integration :=
  match r with
  | RegisterEZ _ => ez_template
  | RegisterLemLib _ => lemlib
  end.

(** A translation unit: the integration headers it includes and the calls
    of [setOdom] it makes. *)
Record translation_unit : Type := mkTU {
  tu_includes : list integration;
  tu_calls : list registration
}.

Inductive build_result : Type :=
| BuildError (d : diagnostic)
| NoMatchingOverload
| Built (calls : list registration).

(** Each translation unit is preprocessed on its own; a call compiles only
    against an overload its own includes declare. *)
Definition compile (tu : translation_unit) : build_result :=
  match pp_translation_unit (tu_includes tu) with
  | PPError d => BuildError d
  | PPOk s =>
      if forallb (fun r => bool_decide (overload_of r ∈ declared s)) (tu_calls tu)
      then Built (tu_calls tu)
      else NoMatchingOverload
  end.

Fixpoint build (program : list translation_unit) : build_result :=
  match program with
  | [] => Built []
  | tu :: rest =>
      match compile tu with
      | Built calls =>
          match build rest with
          | Built calls' => Built (calls ++ calls')
          | failure => failure
          end
      | failure => failure
      end
  end.

Section Startup.
Context `{Backends}.

Definition register (r : registration) (logger : Logger) : prog Logger :=
  match r with
  | RegisterEZ chassis => EZTemplate.setOdom logger chassis
  | RegisterLemLib chassis => LemLib.setOdom logger chassis
  end.

Fixpoint startup (calls : list registration) (logger : Logger) : prog Logger :=
  match calls with
  | [] => mret logger
  | r :: rest => logger' ← register r logger; startup rest logger'
  end.

(** Modelled from the spec: the logger's sampling loop is not part of the
    sources; the spec has the logger invoke the installed capability, and a
    logger with an empty slot has no pose to report. *)
Definition sample (logger : Logger) : PoseGetter :=
  match m_getPose logger with
  | Some getter => getter
  | None => mret None
  end.

End Startup.

(** ** A simulated robot

    One concrete reading of the interfaces above, used to run the lambdas:
    every scalar is a [float] (so the conversions are identities), scalars
    are IEEE-754 binary32 data, and the chassis objects are plain records
    whose accessors read a field. *)
Module Sim.

(** The binary32 value of an integer literal such as [10.0f]. *)
Definition float_of_Z (z : Z) : spec_float := binary_normalize 24 128 z 0 false.

Definition scalars : Scalars := {|
  cfloat := spec_float;
  ez_scalar := spec_float;
  lemlib_scalar := spec_float;
  pose_scalar := spec_float;
  ez_to_float := fun v => v;
  float_to_pose := fun v => v;
  lemlib_to_pose := fun v => v
|}.

Record drive : Type := mkDrive {
  d_enabled : bool;
  d_x : spec_float;
  d_y : spec_float;
  d_theta : spec_float
}.

Record chassis : Type := mkChassis {
  c_pose : @lemlib_Pose scalars
}.

Definition backends : @Backends scalars := {|
  Drive := drive;
  odom_enabled := fun d => (d_enabled d, d);
  odom_x_get := fun d => (d_x d : @ez_scalar scalars, d);
  odom_y_get := fun d => (d_y d : @ez_scalar scalars, d);
  odom_theta_get := fun d => (d_theta d : @ez_scalar scalars, d);
  Chassis := chassis;
  getPose := fun c => (c_pose c, c)
|}.

(** An odometry that reports x = 10.0 in, y = -5.0 in, theta = 90.0 deg. *)
Definition reading (enabled : bool) : drive :=
  mkDrive enabled (float_of_Z 10) (float_of_Z (-5)) (float_of_Z 90).

Definition lemlib_reading : chassis :=
  mkChassis (mk_lemlib_Pose (H := scalars)
               (float_of_Z 10) (float_of_Z (-5)) (float_of_Z 90)).

(** A store with one drive and one chassis, both at address 1. *)
Definition robot (d : drive) (c : chassis) : @world scalars backends :=
  mkWorld (H0 := backends) {[ 1%positive := d ]} {[ 1%positive := c ]}.

End Sim.

(** ** Vocabulary of the properties *)

Section Vocabulary.
Context `{Backends}.

(** The pose the EZ-Template accessors report for a drive [d]: each
    reading through the conversions of [const float ... = ...] and
    [Pose{...}], nothing else. *)
Definition ez_readings (d : Drive) : Pose :=
  mkPose (float_to_pose (ez_to_float (fst (odom_x_get d))))
         (float_to_pose (ez_to_float (fst (odom_y_get d))))
         (float_to_pose (ez_to_float (fst (odom_theta_get d)))).

(** The pose [getPose] reports for a chassis [c]. *)
Definition lemlib_readings (c : Chassis) : Pose :=
  mkPose (lemlib_to_pose (lp_x (fst (getPose c))))
         (lemlib_to_pose (lp_y (fst (getPose c))))
         (lemlib_to_pose (lp_theta (fst (getPose c)))).

(** What holds of the capability that a run of [setOdom] left in the
    logger; nothing holds if the run itself faulted. *)
Definition installed (r : run_result Logger) (P : PoseGetter -> Prop) : Prop :=
  match rr_outcome r with
  | Returned logger' => P (sample logger')
  | Fault => False
  end.

(** A handle is well formed when it is null or leads to a live object. *)
Definition ez_handle_ok (chassis : ptr) (w : world) : Prop :=
  match chassis with
  | nullptr => True
  | addr l => is_Some (drives w !! l)
  end.

Definition lemlib_handle_ok (chassis : ptr) (w : world) : Prop :=
  match chassis with
  | nullptr => True
  | addr l => is_Some (chassis_objs w !! l)
  end.

(** The EZ-Template source has a pose to give: the handle leads to the
    drive [d] and [d] reports its odometry enabled. *)
Definition ez_usable (chassis : ptr) (w : world) (d : Drive) : Prop :=
  exists l, chassis = addr l /\ drives w !! l = Some d /\ fst (odom_enabled d) = true.

(** The LemLib source has a pose to give: the handle leads to [c]. *)
Definition lemlib_usable (chassis : ptr) (w : world) (c : Chassis) : Prop :=
  exists l, chassis = addr l /\ chassis_objs w !! l = Some c.

End Vocabulary.

(** The guard macro is defined in the state. *)
Definition guard_set (s : pp_state) : Prop := _MVLIB_OPTIONAL_USED ∈ defined s.

(** Some translation unit of the program includes the header of [i]. *)
Definition includes_integration (program : list translation_unit) (i : integration)
  : Prop :=
  exists tu, tu ∈ program /\ i ∈ tu_includes tu.

(** ** Vocabulary of the further properties *)

Section Sampling.
Context `{Backends}.

(** One sample of an EZ-Template drive, as a function of the drive alone:
    the drive is handed from [odom_enabled] to [odom_x_get], [odom_y_get]
    and [odom_theta_get], in the order of the lambda's lines; the second
    component is the drive as the last call left it. *)
Definition ez_sample (d : Drive) : option Pose * Drive :=
  let '(enabled, d1) := odom_enabled d in
  if enabled then
    let '(xr, d2) := odom_x_get d1 in
    let '(yr, d3) := odom_y_get d2 in
    let '(thr, d4) := odom_theta_get d3 in
    (Some (mkPose (float_to_pose (ez_to_float xr)) (float_to_pose (ez_to_float yr))
                  (float_to_pose (ez_to_float thr))), d4)
  else (None, d1).

(** The calls one sample of a drive makes through [chassis]. *)
Definition ez_sample_calls (chassis : ptr) (d : Drive) : list action :=
  if fst (odom_enabled d)
  then [OdomEnabled chassis; OdomXGet chassis; OdomYGet chassis; OdomThetaGet chassis]
  else [OdomEnabled chassis].

(** The store with the drive at [l] replaced. *)
Definition with_drive (l : loc) (d : Drive) (w : world) : world :=
  mkWorld (<[l := d]> (drives w)) (chassis_objs w).

(** The store with the chassis at [l] replaced. *)
Definition with_chassis (l : loc) (c : Chassis) (w : world) : world :=
  mkWorld (drives w) (<[l := c]> (chassis_objs w)).

(** [w'] differs from [w] at most in the state of the object [chassis]
    leads to: same objects alive, every other object as it was. *)
Definition same_but_at (chassis : ptr) (w w' : world) : Prop :=
  (forall l, is_Some (drives w' !! l) <-> is_Some (drives w !! l)) /\
  (forall l, is_Some (chassis_objs w' !! l) <-> is_Some (chassis_objs w !! l)) /\
  (forall l, chassis <> addr l -> drives w' !! l = drives w !! l) /\
  (forall l, chassis <> addr l -> chassis_objs w' !! l = chassis_objs w !! l).

End Sampling.

(** The state a translation unit is in when it defined the guard macro
    itself before including anything. *)
Definition pp_predefined : pp_state := mkPP {[ _MVLIB_OPTIONAL_USED ]} ∅ [] [].

(** ** A robot that moves between reads

    A second reading of the interfaces, with accessors that are not reads:
    the drive is a counter, every pose accessor reports the counter and
    advances it, as an odometry does that is updated between two calls. *)
Module Moving.

Definition backends : @Backends Sim.scalars := {|
  Drive := Z;
  odom_enabled := fun d => (true, d);
  odom_x_get := fun d => (Sim.float_of_Z d : @ez_scalar Sim.scalars, (d + 1)%Z);
  odom_y_get := fun d => (Sim.float_of_Z d : @ez_scalar Sim.scalars, (d + 1)%Z);
  odom_theta_get := fun d => (Sim.float_of_Z d : @ez_scalar Sim.scalars, (d + 1)%Z);
  Chassis := Z;
  getPose := fun c =>
    (mk_lemlib_Pose (H := Sim.scalars)
       (Sim.float_of_Z c) (Sim.float_of_Z c) (Sim.float_of_Z c), (c + 1)%Z)
|}.

(** A store with one drive and one chassis, both at address 1. *)
Definition robot (d c : Z) : @world Sim.scalars backends :=
  mkWorld (H0 := backends) {[ 1%positive := d ]} {[ 1%positive := c ]}.

End Moving.

(** * Properties *)

(** ** Running the lambdas *)

Section RunLemmas.
Context `{Backends}.

Lemma run_bind {A B : Type} (m : prog A) (f : A -> prog B) (w : world) :
  run (bind m f) w =
  match rr_outcome (run m w) with
  | Returned v =>
      let rest := run (f v) (rr_world (run m w)) in
      mkRun (rr_outcome rest) (rr_world rest) (rr_calls (run m w) ++ rr_calls rest)
  | Fault => mkRun Fault (rr_world (run m w)) (rr_calls (run m w))
  end.
Proof.
  revert w. induction m as [v | a k IH]; intros w; simpl.
  - destruct (run (f v) w); reflexivity.
  - destruct (perform a w) as [[r | ] w']; simpl; [ | reflexivity].
    rewrite IH. destruct (rr_outcome (run (k r) w')); reflexivity.
Qed.

(** A member function that hands its object back unchanged leaves the
    store as it was, whatever the pointer. *)
Lemma on_drive_frame {R : Type} (m : Drive -> R * Drive) (p : ptr) (w : world) :
  (forall d, snd (m d) = d) -> snd (on_drive m p w) = w.
Proof.
  intros Hro. destruct p as [ | l]; simpl; [reflexivity | ].
  destruct (drives w !! l) as [d | ] eqn:Hl; [ | reflexivity].
  specialize (Hro d). destruct (m d) as [r d']. simpl in *. subst d'.
  rewrite insert_id by exact Hl. destruct w; reflexivity.
Qed.

Lemma on_chassis_frame {R : Type} (m : Chassis -> R * Chassis) (p : ptr) (w : world) :
  (forall c, snd (m c) = c) -> snd (on_chassis m p w) = w.
Proof.
  intros Hro. destruct p as [ | l]; simpl; [reflexivity | ].
  destruct (chassis_objs w !! l) as [c | ] eqn:Hl; [ | reflexivity].
  specialize (Hro c). destruct (m c) as [r c']. simpl in *. subst c'.
  rewrite insert_id by exact Hl. destruct w; reflexivity.
Qed.

Lemma on_drive_valid {R : Type} (m : Drive -> R * Drive) (l : loc) (d : Drive)
      (w : world) :
  drives w !! l = Some d -> snd (m d) = d ->
  on_drive m (addr l) w = (Returned (fst (m d)), w).
Proof.
  intros Hl Hro. simpl. rewrite Hl. destruct (m d) as [r d']. simpl in *. subst d'.
  rewrite insert_id by exact Hl. destruct w; reflexivity.
Qed.

Lemma on_drive_dangling {R : Type} (m : Drive -> R * Drive) (l : loc) (w : world) :
  drives w !! l = None -> on_drive m (addr l) w = (Fault, w).
Proof. intros Hl. simpl. rewrite Hl. reflexivity. Qed.

Section ReadOnly.
Context `{!ReadOnlyAccessors}.

Lemma perform_frame (a : action) (w : world) : snd (perform a w) = w.
Proof.
  destruct a; simpl.
  - apply on_drive_frame, odom_enabled_ro.
  - apply on_drive_frame, odom_x_get_ro.
  - apply on_drive_frame, odom_y_get_ro.
  - apply on_drive_frame, odom_theta_get_ro.
  - apply on_chassis_frame, getPose_ro.
Qed.

(** A program made of accessor calls only leaves the store as it was. *)
Lemma run_frame {T : Type} (p : prog T) (w : world) : rr_world (run p w) = w.
Proof.
  revert w. induction p as [v | a k IH]; intros w; simpl; [reflexivity | ].
  pose proof (perform_frame a w) as Hf.
  destruct (perform a w) as [[r | ] w']; simpl in *; subst w'; [apply IH | reflexivity].
Qed.

(** Run again on the store the first run left: the same result. *)
Lemma run_again {T : Type} (p : prog T) (w : world) :
  run p (rr_world (run p w)) = run p w.
Proof. rewrite run_frame. reflexivity. Qed.

End ReadOnly.
End RunLemmas.

(** ** The EZ-Template lambda, case by case *)

Section EZRuns.
Context `{Backends}.

Lemma ez_run_null (w : world) :
  run (EZTemplate.pose_getter nullptr) w = mkRun (Returned None) w [].
Proof. reflexivity. Qed.

Lemma ez_run_dangling (l : loc) (w : world) :
  drives w !! l = None ->
  run (EZTemplate.pose_getter (addr l)) w = mkRun Fault w [OdomEnabled (addr l)].
Proof.
  intros Hl. unfold EZTemplate.pose_getter.
  cbn [is_null mbind prog_mbind bind call run perform].
  rewrite (on_drive_dangling _ _ _ Hl). reflexivity.
Qed.

(** Not ready: one call, and the answer does not wait for the accessors to
    be reads. *)
Lemma ez_run_not_ready (l : loc) (d : Drive) (w : world) :
  drives w !! l = Some d -> fst (odom_enabled d) = false ->
  rr_outcome (run (EZTemplate.pose_getter (addr l)) w) = Returned None /\
  rr_calls (run (EZTemplate.pose_getter (addr l)) w) = [OdomEnabled (addr l)].
Proof.
  intros Hl Hen. unfold EZTemplate.pose_getter.
  cbn [is_null mbind prog_mbind bind call run perform on_drive].
  rewrite Hl. destruct (odom_enabled d) as [en d']. simpl in Hen. subst en.
  cbn. split; reflexivity.
Qed.

Lemma ez_run_ready `{!ReadOnlyAccessors} (l : loc) (d : Drive) (w : world) :
  drives w !! l = Some d -> fst (odom_enabled d) = true ->
  run (EZTemplate.pose_getter (addr l)) w =
  mkRun (Returned (Some (ez_readings d))) w
        [OdomEnabled (addr l); OdomXGet (addr l); OdomYGet (addr l);
         OdomThetaGet (addr l)].
Proof.
  intros Hl Hen. unfold EZTemplate.pose_getter.
  cbn [is_null mbind prog_mbind bind call run perform].
  rewrite (on_drive_valid _ _ _ _ Hl (odom_enabled_ro d)), Hen.
  cbn [negb mbind prog_mbind bind call run perform mret prog_mret].
  rewrite (on_drive_valid _ _ _ _ Hl (odom_x_get_ro d)).
  cbn [mbind prog_mbind bind call run perform mret prog_mret].
  rewrite (on_drive_valid _ _ _ _ Hl (odom_y_get_ro d)).
  cbn [mbind prog_mbind bind call run perform mret prog_mret].
  rewrite (on_drive_valid _ _ _ _ Hl (odom_theta_get_ro d)).
  reflexivity.
Qed.

Lemma lemlib_run_null (w : world) :
  run (LemLib.pose_getter nullptr) w = mkRun (Returned None) w [].
Proof. reflexivity. Qed.

Lemma lemlib_run_dangling (l : loc) (w : world) :
  chassis_objs w !! l = None ->
  run (LemLib.pose_getter (addr l)) w = mkRun Fault w [GetPose (addr l)].
Proof.
  intros Hl. unfold LemLib.pose_getter.
  cbn [is_null mbind prog_mbind bind call run perform on_chassis].
  rewrite Hl. reflexivity.
Qed.

(** A live chassis: one call of [getPose], and its pose comes back. *)
Lemma lemlib_run_valid (l : loc) (c : Chassis) (w : world) :
  chassis_objs w !! l = Some c ->
  rr_outcome (run (LemLib.pose_getter (addr l)) w) = Returned (Some (lemlib_readings c)) /\
  rr_calls (run (LemLib.pose_getter (addr l)) w) = [GetPose (addr l)].
Proof.
  intros Hl. unfold LemLib.pose_getter, lemlib_readings.
  cbn [is_null mbind prog_mbind bind call run perform on_chassis].
  rewrite Hl. destruct (getPose c) as [p c']. cbn. split; reflexivity.
Qed.

(** ** What [setOdom] leaves in the logger *)

Lemma ez_setOdom_run (logger : Logger) (chassis : ptr) (w : world) :
  run (EZTemplate.setOdom logger chassis) w =
  mkRun (Returned (mkLogger (Some (EZTemplate.pose_getter chassis)))) w [].
Proof. reflexivity. Qed.

Lemma lemlib_setOdom_run (logger : Logger) (chassis : ptr) (w : world) :
  run (LemLib.setOdom logger chassis) w =
  mkRun (Returned (mkLogger (Some (LemLib.pose_getter chassis)))) w [].
Proof. reflexivity. Qed.

End EZRuns.

(** ** The include guard *)

Section Guard.

(** A header already read under [#pragma once] is skipped. *)
Lemma pp_include_seen (i : integration) (s : pp_state) :
  i ∈ once s -> pp_include i s = PPOk s.
Proof. intros Hi. unfold pp_include. rewrite decide_True by exact Hi. reflexivity. Qed.

(** A header not read yet, met with the macro defined: its [#error] fires. *)
Lemma pp_include_guarded (i : integration) (s : pp_state) :
  i ∉ once s -> guard_set s -> pp_include i s = PPError (mkDiag i guard_message).
Proof.
  intros Hi Hg. unfold pp_include. rewrite decide_False by exact Hi.
  destruct i; cbn [header pp_directives pp_directive defined];
    rewrite decide_True by exact Hg; reflexivity.
Qed.

(** A header not read yet, met with the macro undefined: it defines the
    macro, is marked as read, and declares its [setOdom]. *)
Lemma pp_include_first (i : integration) (s : pp_state) :
  i ∉ once s -> ~ guard_set s ->
  exists s', pp_include i s = PPOk s' /\
             guard_set s' /\
             once s' = {[i]} ∪ once s /\
             declared s' = i :: declared s.
Proof.
  intros Hi Hg. unfold pp_include. rewrite decide_False by exact Hi.
  destruct i; cbn [header pp_directives pp_directive defined];
    rewrite !decide_False by exact Hg;
    cbn [pp_directives pp_directive defined once declared library_headers];
    eexists; (split; [reflexivity | ]); cbn [defined once declared];
    (split; [unfold guard_set; cbn [defined]; set_solver | split; reflexivity]).
Qed.

(** Once one header has claimed the macro, the rest of the translation
    unit either repeats that header or stops at the [#error] of the other. *)
Lemma pp_includes_claimed (i : integration) (rest : list integration) (s : pp_state) :
  guard_set s -> (forall j, j ∈ once s <-> j = i) ->
  match pp_includes rest s with
  | PPOk s' => s' = s /\ (forall j, j ∈ rest -> j = i)
  | PPError d => diag_text d = guard_message /\ diag_header d ∈ rest /\ diag_header d <> i
  end.
Proof.
  intros Hg Honce. induction rest as [ | j rest IH]; cbn [pp_includes].
  - split; [reflexivity | intros j Hj; inversion Hj].
  - destruct (decide (j = i)) as [-> | Hne].
    + rewrite pp_include_seen by (apply Honce; reflexivity).
      destruct (pp_includes rest s) as [d | s'].
      * destruct IH as (Ht & Hin & Hd). repeat split; [exact Ht | | exact Hd].
        apply elem_of_cons. right. exact Hin.
      * destruct IH as (-> & Hall). split; [reflexivity | ].
        intros j Hj. apply elem_of_cons in Hj as [-> | Hj]; [reflexivity | auto].
    + rewrite pp_include_guarded; [ | rewrite Honce; exact Hne | exact Hg].
      cbn [diag_text diag_header]. repeat split; [ | exact Hne].
      apply elem_of_cons. left. reflexivity.
Qed.

(** What preprocessing a translation unit comes to. *)
Lemma pp_translation_unit_spec (includes : list integration) :
  match pp_translation_unit includes with
  | PPOk s =>
      (includes = [] /\ declared s = []) \/
      (exists i, declared s = [i] /\ forall j, j ∈ includes -> j = i)
  | PPError d =>
      diag_text d = guard_message /\ diag_header d ∈ includes /\
      exists i, i ∈ includes /\ i <> diag_header d
  end.
Proof.
  unfold pp_translation_unit. destruct includes as [ | i rest]; cbn [pp_includes].
  - left. split; reflexivity.
  - destruct (pp_include_first i pp_start) as (s1 & -> & Hg & Honce & Hdecl).
    + cbn. set_solver.
    + unfold guard_set. cbn. set_solver.
    + pose proof (pp_includes_claimed i rest s1 Hg) as Hrest.
      destruct (pp_includes rest s1) as [d | s'].
      * destruct Hrest as (Ht & Hin & Hd).
        { intros j. rewrite Honce. cbn [once pp_start].
          rewrite union_empty_r_L. apply elem_of_singleton. }
        split; [exact Ht | split].
        -- apply elem_of_cons. right. exact Hin.
        -- exists i. split; [apply elem_of_cons; left; reflexivity | congruence].
      * destruct Hrest as (-> & Hall).
        { intros j. rewrite Honce. cbn [once pp_start].
          rewrite union_empty_r_L. apply elem_of_singleton. }
        right. exists i. split; [exact Hdecl | ].
        intros j Hj. apply elem_of_cons in Hj as [-> | Hj]; [reflexivity | auto].
Qed.

(** A translation unit that includes both headers does not compile, and a
    program that contains it does not build. *)
Lemma compile_two_integrations (tu : translation_unit) (i j : integration) :
  i ∈ tu_includes tu -> j ∈ tu_includes tu -> i <> j ->
  exists d, compile tu = BuildError d.
Proof.
  intros Hi Hj Hne. unfold compile.
  pose proof (pp_translation_unit_spec (tu_includes tu)) as Hspec.
  destruct (pp_translation_unit (tu_includes tu)) as [d | s]; [eauto | exfalso].
  destruct Hspec as [[Hnil _] | (k & _ & Hall)].
  - rewrite Hnil in Hi. inversion Hi.
  - apply Hne. rewrite (Hall i Hi), (Hall j Hj). reflexivity.
Qed.

Lemma build_needs_every_unit (program : list translation_unit) (tu : translation_unit)
      (calls : list registration) :
  tu ∈ program -> build program = Built calls -> exists c, compile tu = Built c.
Proof.
  revert calls. induction program as [ | tu' program IH]; intros calls Hin Hb.
  - inversion Hin.
  - cbn [build] in Hb. destruct (compile tu') as [d | | c] eqn:Hc; try discriminate.
    destruct (build program) as [d | | cs] eqn:Hrest; try discriminate.
    apply elem_of_cons in Hin as [-> | Hin]; [eauto | eapply IH; eauto].
Qed.

Lemma pp_includes_error_location (i : integration) (rest : list integration)
      (s : pp_state) (d : diagnostic) :
  guard_set s -> (forall j, j ∈ once s <-> j = i) ->
  pp_includes rest s = PPError d ->
  exists pre post, rest = (pre ++ diag_header d :: post)%list /\
                   (forall j, j ∈ pre -> j = i) /\ diag_header d <> i.
Proof.
  intros Hg Honce. induction rest as [ | j rest IH]; cbn [pp_includes]; [discriminate | ].
  destruct (decide (j = i)) as [-> | Hne].
  - rewrite pp_include_seen by (apply Honce; reflexivity). intros Herr.
    destruct (IH Herr) as (pre & post & -> & Hpre & Hd).
    exists (i :: pre), post. split; [reflexivity | split; [ | exact Hd]].
    intros j Hj. apply elem_of_cons in Hj as [-> | Hj]; [reflexivity | auto].
  - rewrite pp_include_guarded; [ | rewrite Honce; exact Hne | exact Hg].
    intros [= <-]. exists [], rest. cbn [diag_header].
    split; [reflexivity | split; [ | exact Hne]]. intros k Hk. inversion Hk.
Qed.

(** Where the [#error] of a rejected translation unit comes from. *)
Lemma pp_translation_unit_error (first : integration) (rest : list integration)
      (d : diagnostic) :
  pp_translation_unit (first :: rest) = PPError d ->
  diag_text d = guard_message /\
  exists pre post, rest = (pre ++ diag_header d :: post)%list /\
                   (forall j, j ∈ pre -> j = first) /\ diag_header d <> first.
Proof.
  intros Herr. split.
  - pose proof (pp_translation_unit_spec (first :: rest)) as Hspec.
    rewrite Herr in Hspec. exact (proj1 Hspec).
  - revert Herr. unfold pp_translation_unit. cbn [pp_includes].
    destruct (pp_include_first first pp_start) as (s1 & -> & Hg & Honce & _).
    { cbn. apply not_elem_of_empty. }
    { unfold guard_set. cbn. apply not_elem_of_empty. }
    apply pp_includes_error_location; [exact Hg | ].
    intros j. rewrite Honce. cbn [once pp_start].
    rewrite union_empty_r_L. apply elem_of_singleton.
Qed.

End Guard.

(** * The bridge, claim by claim *)

(** The simulated robot's accessors are reads. *)
Lemma sim_read_only : @ReadOnlyAccessors Sim.scalars Sim.backends.
Proof. constructor; intros; reflexivity. Defined.

(** C1: with a non-null handle that leads to a live chassis whose
    readiness holds, the capability installed by [setOdom] returns a Pose
    whose x, y and heading are the back-end's three readings, passed through
    the integration's fixed conversions and through nothing else (no
    scaling: the conversion factor is the identity).  EZ-Template reads
    [odom_x_get], [odom_y_get], [odom_theta_get]; LemLib reads the fields of
    [getPose()] and has no readiness flag to consult. *)
Theorem capability_returns_readings `{ReadOnlyAccessors}
    (logger : Logger) (l : loc) (w0 w : world) :
  (forall d : Drive,
      drives w !! l = Some d -> fst (odom_enabled d) = true ->
      installed (run (EZTemplate.setOdom logger (addr l)) w0) (fun capability =>
        rr_outcome (run capability w) =
        Returned (Some (mkPose (float_to_pose (ez_to_float (fst (odom_x_get d))))
                               (float_to_pose (ez_to_float (fst (odom_y_get d))))
                               (float_to_pose (ez_to_float (fst (odom_theta_get d)))))))) /\
  (forall c : Chassis,
      chassis_objs w !! l = Some c ->
      installed (run (LemLib.setOdom logger (addr l)) w0) (fun capability =>
        rr_outcome (run capability w) =
        Returned (Some (mkPose (lemlib_to_pose (lp_x (fst (getPose c))))
                               (lemlib_to_pose (lp_y (fst (getPose c))))
                               (lemlib_to_pose (lp_theta (fst (getPose c)))))))).
Proof.
  split.
  - intros d Hl Hen. unfold installed. rewrite ez_setOdom_run. cbn [rr_outcome sample m_getPose].
    rewrite (ez_run_ready l d w Hl Hen). reflexivity.
  - intros c Hl. unfold installed. rewrite lemlib_setOdom_run. cbn [rr_outcome sample m_getPose].
    exact (proj1 (lemlib_run_valid l c w Hl)).
Qed.


(** C2: with a null handle, every invocation of the installed capability
    returns [std::nullopt]: it returns (no fault), the result is the
    unavailable marker and not a Pose of any kind, and no member function
    of the chassis is called.  Both integrations, every store. *)
Theorem null_handle_unavailable `{Backends} (logger : Logger) (w0 w : world) :
  installed (run (EZTemplate.setOdom logger nullptr) w0) (fun capability =>
    run capability w = mkRun (Returned None) w []) /\
  installed (run (LemLib.setOdom logger nullptr) w0) (fun capability =>
    run capability w = mkRun (Returned None) w []).
Proof. split; reflexivity. Qed.

(** C3: EZ-Template, handle present, [odom_enabled()] false: the installed
    capability returns the unavailable marker, the same outcome as with a
    null handle, whatever the drive's numeric pose fields are (the three
    pose accessors are not even called). *)
Theorem not_ready_unavailable `{Backends}
    (logger : Logger) (l : loc) (d : Drive) (w0 w : world) :
  drives w !! l = Some d -> fst (odom_enabled d) = false ->
  installed (run (EZTemplate.setOdom logger (addr l)) w0) (fun capability =>
    rr_outcome (run capability w) = Returned None /\
    rr_calls (run capability w) = [OdomEnabled (addr l)] /\
    installed (run (EZTemplate.setOdom logger nullptr) w0) (fun null_capability =>
      rr_outcome (run capability w) = rr_outcome (run null_capability w))).
Proof.
  intros Hl Hen. unfold installed. rewrite !ez_setOdom_run.
  cbn [rr_outcome sample m_getPose].
  destruct (ez_run_not_ready l d w Hl Hen) as [Hout Hcalls].
  rewrite Hout, Hcalls, ez_run_null. repeat split.
Qed.

(** C5: with accessors that are reads, the installed capability is
    deterministic and idempotent: invoked a second time on the store the
    first invocation left (nothing else having run in between), it yields
    the same result, be it a Pose or the unavailable marker.  Any handle,
    both integrations. *)
Theorem capability_idempotent `{ReadOnlyAccessors}
    (logger : Logger) (chassis : ptr) (w0 w : world) :
  installed (run (EZTemplate.setOdom logger chassis) w0) (fun capability =>
    let first := run capability w in
    let second := run capability (rr_world first) in
    rr_outcome second = rr_outcome first) /\
  installed (run (LemLib.setOdom logger chassis) w0) (fun capability =>
    let first := run capability w in
    let second := run capability (rr_world first) in
    rr_outcome second = rr_outcome first).
Proof.
  split; unfold installed; rewrite ?ez_setOdom_run, ?lemlib_setOdom_run;
    cbn [rr_outcome sample m_getPose]; rewrite run_again; reflexivity.
Qed.

(** C6: one query yields either a Pose with all three fields taken from the
    back-end's readings, and then the source was usable, or the unavailable
    marker, and then it was not: absence is never dressed up as a Pose (of
    zeros, NaNs or anything else), and a Pose never stands for less than the
    three readings.  Handles are null or lead to a live object. *)
Theorem sample_is_pose_or_unavailable `{ReadOnlyAccessors}
    (logger : Logger) (chassis : ptr) (w0 w : world) :
  (ez_handle_ok chassis w ->
   installed (run (EZTemplate.setOdom logger chassis) w0) (fun capability =>
     match rr_outcome (run capability w) with
     | Returned (Some pose) => exists d, ez_usable chassis w d /\ pose = ez_readings d
     | Returned None => forall d, ~ ez_usable chassis w d
     | Fault => False
     end)) /\
  (lemlib_handle_ok chassis w ->
   installed (run (LemLib.setOdom logger chassis) w0) (fun capability =>
     match rr_outcome (run capability w) with
     | Returned (Some pose) => exists c, lemlib_usable chassis w c /\ pose = lemlib_readings c
     | Returned None => forall c, ~ lemlib_usable chassis w c
     | Fault => False
     end)).
Proof.
  split; intros Hok; unfold installed;
    rewrite ?ez_setOdom_run, ?lemlib_setOdom_run; cbn [rr_outcome sample m_getPose].
  - destruct chassis as [ | l].
    + rewrite ez_run_null. cbn. intros d (l & Hl & _). discriminate.
    + destruct Hok as [d Hl]. destruct (fst (odom_enabled d)) eqn:Hen.
      * rewrite (ez_run_ready l d w Hl Hen). cbn.
        exists d. split; [exists l; auto | reflexivity].
      * rewrite (proj1 (ez_run_not_ready l d w Hl Hen)).
        intros d' (l' & Heq & Hl' & Hen'). injection Heq as <-. congruence.
  - destruct chassis as [ | l].
    + rewrite lemlib_run_null. cbn. intros c (l & Hl & _). discriminate.
    + destruct Hok as [c Hl]. rewrite (proj1 (lemlib_run_valid l c w Hl)).
      exists c. split; [exists l; auto | reflexivity].
Qed.

(** C7: an invocation of the installed capability leaves the store of
    back-end objects exactly as it found it, and the only member functions
    it calls, all through the captured handle, are the read accessors:
    [odom_enabled], [odom_x_get], [odom_y_get], [odom_theta_get] for
    EZ-Template, [getPose] for LemLib.  (That those accessors are reads is
    the back-end's part.) *)
Theorem capability_only_reads `{ReadOnlyAccessors}
    (logger : Logger) (chassis : ptr) (w0 w : world) :
  installed (run (EZTemplate.setOdom logger chassis) w0) (fun capability =>
    rr_world (run capability w) = w /\
    forall a, a ∈ rr_calls (run capability w) ->
              a ∈ [OdomEnabled chassis; OdomXGet chassis; OdomYGet chassis;
                   OdomThetaGet chassis]) /\
  installed (run (LemLib.setOdom logger chassis) w0) (fun capability =>
    rr_world (run capability w) = w /\
    forall a, a ∈ rr_calls (run capability w) -> a = GetPose chassis).
Proof.
  split; unfold installed; rewrite ?ez_setOdom_run, ?lemlib_setOdom_run;
    cbn [rr_outcome sample m_getPose]; (split; [apply run_frame | ]).
  - destruct chassis as [ | l].
    + rewrite ez_run_null. cbn. intros a Ha. inversion Ha.
    + destruct (drives w !! l) as [d | ] eqn:Hl.
      * destruct (fst (odom_enabled d)) eqn:Hen.
        -- rewrite (ez_run_ready l d w Hl Hen). cbn. auto.
        -- rewrite (proj2 (ez_run_not_ready l d w Hl Hen)).
           intros a Ha. apply list_elem_of_singleton in Ha as ->.
           apply elem_of_cons. left. reflexivity.
      * rewrite (ez_run_dangling l w Hl). cbn.
        intros a Ha. apply list_elem_of_singleton in Ha as ->.
        apply elem_of_cons. left. reflexivity.
  - destruct chassis as [ | l].
    + rewrite lemlib_run_null. cbn. intros a Ha. inversion Ha.
    + destruct (chassis_objs w !! l) as [c | ] eqn:Hl.
      * rewrite (proj2 (lemlib_run_valid l c w Hl)).
        intros a Ha. apply list_elem_of_singleton in Ha. exact Ha.
      * rewrite (lemlib_run_dangling l w Hl). cbn.
        intros a Ha. apply list_elem_of_singleton in Ha. exact Ha.
Qed.

(** C9: [setOdom] itself makes no call through the chassis handle and
    leaves the store alone, whatever the handle (null and dangling ones
    included): all it does is put the lambda, closed over the handle, into
    the logger.  Installing with a null handle succeeds, and the capability
    then answers unavailable.  With a non-null handle the decision is taken
    anew at each invocation, on the store of that moment ([w]) and not of
    the installation ([w0]), through the handle captured at installation. *)
Theorem setOdom_only_registers `{ReadOnlyAccessors}
    (logger : Logger) (chassis : ptr) (l : loc) (w0 w : world) :
  run (EZTemplate.setOdom logger chassis) w0 =
    mkRun (Returned (mkLogger (Some (EZTemplate.pose_getter chassis)))) w0 [] /\
  run (LemLib.setOdom logger chassis) w0 =
    mkRun (Returned (mkLogger (Some (LemLib.pose_getter chassis)))) w0 [] /\
  installed (run (EZTemplate.setOdom logger nullptr) w0) (fun capability =>
    rr_outcome (run capability w) = Returned None) /\
  installed (run (LemLib.setOdom logger nullptr) w0) (fun capability =>
    rr_outcome (run capability w) = Returned None) /\
  installed (run (EZTemplate.setOdom logger (addr l)) w0) (fun capability =>
    forall d, drives w !! l = Some d ->
      rr_outcome (run capability w) =
      Returned (if fst (odom_enabled d) then Some (ez_readings d) else None)) /\
  installed (run (LemLib.setOdom logger (addr l)) w0) (fun capability =>
    forall c, chassis_objs w !! l = Some c ->
      rr_outcome (run capability w) = Returned (Some (lemlib_readings c))).
Proof.
  repeat split.
  - unfold installed. rewrite ez_setOdom_run. cbn [rr_outcome sample m_getPose].
    intros d Hl. destruct (fst (odom_enabled d)) eqn:Hen.
    + rewrite (ez_run_ready l d w Hl Hen). reflexivity.
    + exact (proj1 (ez_run_not_ready l d w Hl Hen)).
  - unfold installed. rewrite lemlib_setOdom_run. cbn [rr_outcome sample m_getPose].
    intros c Hl. exact (proj1 (lemlib_run_valid l c w Hl)).
Qed.

(** C10: the LemLib lambda consults no readiness flag.  Through a non-null
    handle its only call is [getPose()], its result is never the
    unavailable marker, and when the handle leads to a live chassis the
    result is the Pose built from what [getPose()] returned. *)
Theorem lemlib_never_unavailable `{Backends}
    (logger : Logger) (l : loc) (w0 w : world) :
  installed (run (LemLib.setOdom logger (addr l)) w0) (fun capability =>
    rr_outcome (run capability w) <> Returned None /\
    rr_calls (run capability w) = [GetPose (addr l)] /\
    forall c, chassis_objs w !! l = Some c ->
      rr_outcome (run capability w) =
      Returned (Some (mkPose (lemlib_to_pose (lp_x (fst (getPose c))))
                             (lemlib_to_pose (lp_y (fst (getPose c))))
                             (lemlib_to_pose (lp_theta (fst (getPose c))))))).
Proof.
  unfold installed. rewrite lemlib_setOdom_run. cbn [rr_outcome sample m_getPose].
  destruct (chassis_objs w !! l) as [c | ] eqn:Hl.
  - destruct (lemlib_run_valid l c w Hl) as [Hout Hcalls]. rewrite Hout, Hcalls.
    split; [discriminate | split; [reflexivity | ]].
    intros c' Hc'. injection Hc' as <-. reflexivity.
  - rewrite (lemlib_run_dangling l w Hl). cbn.
    split; [discriminate | split; [reflexivity | ]]. intros c' Hc'. discriminate.
Qed.

(** * The include guard, claim by claim *)

(** C4, as the code has it: including the headers of two distinct
    integrations in one translation unit fails at build time.  Preprocessing
    stops at the [#error] of a header included later: the first include
    that differs from the unit's first include, everything before it
    repeating the first.  The unit does not compile, and no program that
    contains it builds, so no registration and no pose sampling ever
    happens.  (The guard is a macro: it sees one translation unit at a
    time.) *)
Theorem guard_rejects_two_in_one_unit
    (program : list translation_unit) (tu : translation_unit) (i j : integration) :
  i ∈ tu_includes tu -> j ∈ tu_includes tu -> i <> j ->
  (exists first rest pre post d,
      tu_includes tu = first :: rest /\
      rest = (pre ++ diag_header d :: post)%list /\
      (forall k, k ∈ pre -> k = first) /\
      diag_header d <> first /\
      diag_text d = guard_message /\
      pp_translation_unit (tu_includes tu) = PPError d /\
      compile tu = BuildError d) /\
  (tu ∈ program -> forall calls, build program <> Built calls).
Proof.
  intros Hi Hj Hne.
  destruct (compile_two_integrations tu i j Hi Hj Hne) as [d Hd]. split.
  - assert (pp_translation_unit (tu_includes tu) = PPError d) as Hpp.
    { unfold compile in Hd.
      destruct (pp_translation_unit (tu_includes tu)) as [d' | s]; [congruence | ].
      destruct (forallb _ _); discriminate. }
    destruct (tu_includes tu) as [ | first rest] eqn:Hinc; [inversion Hi | ].
    destruct (pp_translation_unit_error first rest d Hpp)
      as (Htext & pre & post & Hrest & Hpre & Hlater).
    exists first, rest, pre, post, d. repeat split; assumption.
  - intros Hin calls Hb.
    destruct (build_needs_every_unit program tu calls Hin Hb) as [c Hc].
    congruence.
Qed.




Lemma guard_rejects_two_in_one_unit_witness :
  let tu := mkTU [ez_template; lemlib]
                 [RegisterEZ (addr 1%positive); RegisterLemLib (addr 1%positive)] in
  (exists first rest pre post d,
      tu_includes tu = first :: rest /\
      rest = (pre ++ diag_header d :: post)%list /\
      (forall k, k ∈ pre -> k = first) /\
      diag_header d <> first /\
      diag_text d = guard_message /\
      pp_translation_unit (tu_includes tu) = PPError d /\
      compile tu = BuildError d) /\
  (tu ∈ [tu] -> forall calls, build [tu] <> Built calls).
Proof.
  apply (guard_rejects_two_in_one_unit
           [mkTU [ez_template; lemlib]
                 [RegisterEZ (addr 1%positive); RegisterLemLib (addr 1%positive)]]
           (mkTU [ez_template; lemlib]
                 [RegisterEZ (addr 1%positive); RegisterLemLib (addr 1%positive)])
           ez_template lemlib).
  - apply elem_of_cons. left. reflexivity.
  - apply elem_of_cons. right. apply elem_of_cons. left. reflexivity.
  - discriminate.
Defined.

(** * On the simulated robot *)

Section OnTheSimulatedRobot.

#[local] Existing Instance Sim.scalars.
#[local] Existing Instance Sim.backends.
#[local] Existing Instance sim_read_only.

(** The scenario of the specification: the back-end reports x = 10.0 in,
    y = -5.0 in, theta = 90.0 deg and is ready; the capability returns
    Pose{10.0, -5.0, 90.0}.  Both integrations. *)
Lemma capability_returns_readings_witness :
  let w := Sim.robot (Sim.reading true) Sim.lemlib_reading in
  let expected :=
    Returned (Some (mkPose (Sim.float_of_Z 10) (Sim.float_of_Z (-5)) (Sim.float_of_Z 90))) in
  installed (run (EZTemplate.setOdom (mkLogger None) (addr 1%positive)) w)
            (fun capability => rr_outcome (run capability w) = expected) /\
  installed (run (LemLib.setOdom (mkLogger None) (addr 1%positive)) w)
            (fun capability => rr_outcome (run capability w) = expected).
Proof.
  pose proof (@capability_returns_readings Sim.scalars Sim.backends sim_read_only
                (mkLogger None) 1%positive
                (Sim.robot (Sim.reading true) Sim.lemlib_reading)
                (Sim.robot (Sim.reading true) Sim.lemlib_reading)) as [Hez Hlem].
  split.
  - exact (Hez (Sim.reading true) eq_refl eq_refl).
  - exact (Hlem Sim.lemlib_reading eq_refl).
Defined.

(** Odometry disabled, fields still 10.0, -5.0, 90.0: unavailable. *)
Lemma not_ready_unavailable_witness :
  let w := Sim.robot (Sim.reading false) Sim.lemlib_reading in
  installed (run (EZTemplate.setOdom (mkLogger None) (addr 1%positive)) w)
    (fun capability =>
       rr_outcome (run capability w) = Returned None /\
       rr_calls (run capability w) = [OdomEnabled (addr 1%positive)] /\
       installed (run (EZTemplate.setOdom (mkLogger None) nullptr) w)
         (fun null_capability =>
            rr_outcome (run capability w) = rr_outcome (run null_capability w))).
Proof.
  exact (@not_ready_unavailable Sim.scalars Sim.backends (mkLogger None) 1%positive
           (Sim.reading false)
           (Sim.robot (Sim.reading false) Sim.lemlib_reading)
           (Sim.robot (Sim.reading false) Sim.lemlib_reading) eq_refl eq_refl).
Defined.

Lemma capability_idempotent_witness :
  let w := Sim.robot (Sim.reading true) Sim.lemlib_reading in
  installed (run (EZTemplate.setOdom (mkLogger None) (addr 1%positive)) w)
    (fun capability =>
       rr_outcome (run capability (rr_world (run capability w))) =
       rr_outcome (run capability w)) /\
  installed (run (LemLib.setOdom (mkLogger None) (addr 1%positive)) w)
    (fun capability =>
       rr_outcome (run capability (rr_world (run capability w))) =
       rr_outcome (run capability w)).
Proof.
  exact (@capability_idempotent Sim.scalars Sim.backends sim_read_only
           (mkLogger None) (addr 1%positive)
           (Sim.robot (Sim.reading true) Sim.lemlib_reading)
           (Sim.robot (Sim.reading true) Sim.lemlib_reading)).
Defined.

Lemma sample_is_pose_or_unavailable_witness :
  let w := Sim.robot (Sim.reading true) Sim.lemlib_reading in
  installed (run (EZTemplate.setOdom (mkLogger None) (addr 1%positive)) w)
    (fun capability =>
       match rr_outcome (run capability w) with
       | Returned (Some pose) =>
           exists d, ez_usable (addr 1%positive) w d /\ pose = ez_readings d
       | Returned None => forall d, ~ ez_usable (addr 1%positive) w d
       | Fault => False
       end) /\
  installed (run (LemLib.setOdom (mkLogger None) (addr 1%positive)) w)
    (fun capability =>
       match rr_outcome (run capability w) with
       | Returned (Some pose) =>
           exists c, lemlib_usable (addr 1%positive) w c /\ pose = lemlib_readings c
       | Returned None => forall c, ~ lemlib_usable (addr 1%positive) w c
       | Fault => False
       end).
Proof.
  pose proof (@sample_is_pose_or_unavailable Sim.scalars Sim.backends sim_read_only
                (mkLogger None) (addr 1%positive)
                (Sim.robot (Sim.reading true) Sim.lemlib_reading)
                (Sim.robot (Sim.reading true) Sim.lemlib_reading)) as [Hez Hlem].
  split.
  - apply Hez. exists (Sim.reading true). reflexivity.
  - apply Hlem. exists Sim.lemlib_reading. reflexivity.
Defined.

Lemma capability_only_reads_witness :
  let w := Sim.robot (Sim.reading true) Sim.lemlib_reading in
  let chassis := addr 1%positive in
  installed (run (EZTemplate.setOdom (mkLogger None) chassis) w) (fun capability =>
    rr_world (run capability w) = w /\
    forall a, a ∈ rr_calls (run capability w) ->
              a ∈ [OdomEnabled chassis; OdomXGet chassis; OdomYGet chassis;
                   OdomThetaGet chassis]) /\
  installed (run (LemLib.setOdom (mkLogger None) chassis) w) (fun capability =>
    rr_world (run capability w) = w /\
    forall a, a ∈ rr_calls (run capability w) -> a = GetPose chassis).
Proof.
  exact (@capability_only_reads Sim.scalars Sim.backends sim_read_only
           (mkLogger None) (addr 1%positive)
           (Sim.robot (Sim.reading true) Sim.lemlib_reading)
           (Sim.robot (Sim.reading true) Sim.lemlib_reading)).
Defined.

(** Installed while the odometry was disabled, invoked once it is enabled:
    the capability answers for the store of the invocation. *)
Lemma setOdom_only_registers_witness :
  let w0 := Sim.robot (Sim.reading false) Sim.lemlib_reading in
  let w := Sim.robot (Sim.reading true) Sim.lemlib_reading in
  run (EZTemplate.setOdom (mkLogger None) (addr 1%positive)) w0 =
    mkRun (Returned (mkLogger (Some (EZTemplate.pose_getter (addr 1%positive))))) w0 [] /\
  installed (run (EZTemplate.setOdom (mkLogger None) (addr 1%positive)) w0)
    (fun capability =>
       rr_outcome (run capability w0) = Returned None /\
       rr_outcome (run capability w) = Returned (Some (ez_readings (Sim.reading true)))).
Proof.
  pose proof (@setOdom_only_registers Sim.scalars Sim.backends sim_read_only
                (mkLogger None) (addr 1%positive) 1%positive
                (Sim.robot (Sim.reading false) Sim.lemlib_reading)) as Hthm.
  split.
  - exact (proj1 (Hthm (Sim.robot (Sim.reading false) Sim.lemlib_reading))).
  - split.
    + exact (proj1 (proj2 (proj2 (proj2 (proj2
               (Hthm (Sim.robot (Sim.reading false) Sim.lemlib_reading))))))
               (Sim.reading false) eq_refl).
    + exact (proj1 (proj2 (proj2 (proj2 (proj2
               (Hthm (Sim.robot (Sim.reading true) Sim.lemlib_reading))))))
               (Sim.reading true) eq_refl).
Defined.

Lemma lemlib_never_unavailable_witness :
  let w := Sim.robot (Sim.reading false) Sim.lemlib_reading in
  installed (run (LemLib.setOdom (mkLogger None) (addr 1%positive)) w) (fun capability =>
    rr_outcome (run capability w) =
    Returned (Some (mkPose (Sim.float_of_Z 10) (Sim.float_of_Z (-5)) (Sim.float_of_Z 90)))).
Proof.
  exact (proj2 (proj2 (@lemlib_never_unavailable Sim.scalars Sim.backends
                         (mkLogger None) 1%positive
                         (Sim.robot (Sim.reading false) Sim.lemlib_reading)
                         (Sim.robot (Sim.reading false) Sim.lemlib_reading)))
           Sim.lemlib_reading eq_refl).
Defined.

(** C4 as stated fails: a program of two translation units, one including
    the EZ-Template header and registering its drive, the other including
    the LemLib header and registering its chassis, builds.  At start-up the
    second registration replaces the first without a word, and the logger
    then samples the LemLib chassis (10, -5, 90) although the EZ-Template
    drive (1, 2, 3) was registered with it and is ready. *)
Lemma guard_misses_separate_units :
  let program :=
    [ mkTU [ez_template] [RegisterEZ (addr 1%positive)];
      mkTU [lemlib] [RegisterLemLib (addr 1%positive)] ] in
  let calls := [RegisterEZ (addr 1%positive); RegisterLemLib (addr 1%positive)] in
  let drive :=
    Sim.mkDrive true (Sim.float_of_Z 1) (Sim.float_of_Z 2) (Sim.float_of_Z 3) in
  let w := Sim.robot drive Sim.lemlib_reading in
  includes_integration program ez_template /\
  includes_integration program lemlib /\
  build program = Built calls /\
  run (startup calls (mkLogger None)) w =
    mkRun (Returned (mkLogger (Some (LemLib.pose_getter (addr 1%positive))))) w [] /\
  rr_outcome (run (sample (mkLogger (Some (LemLib.pose_getter (addr 1%positive))))) w) =
    Returned (Some (mkPose (Sim.float_of_Z 10) (Sim.float_of_Z (-5)) (Sim.float_of_Z 90))) /\
  rr_outcome (run (EZTemplate.pose_getter (addr 1%positive)) w) =
    Returned (Some (mkPose (Sim.float_of_Z 1) (Sim.float_of_Z 2) (Sim.float_of_Z 3))).
Proof.
  cbv zeta. split; [ | split; [ | split; [ | split; [ | split]]]].
  - eexists. split; [apply elem_of_cons; left; reflexivity | ].
    apply elem_of_cons. left. reflexivity.
  - eexists. split; [apply elem_of_cons; right; apply elem_of_cons; left; reflexivity | ].
    apply elem_of_cons. left. reflexivity.
  - vm_compute. reflexivity.
  - reflexivity.
  - vm_compute. reflexivity.
  - vm_compute. reflexivity.
Qed.

End OnTheSimulatedRobot.

(** * Further properties of the lambdas, for any back-end *)

Section LambdasOnAnyBackend.
Context `{Backends}.

Lemma on_drive_live {R : Type} (m : Drive -> R * Drive) (l : loc) (d : Drive) (w : world) :
  drives w !! l = Some d ->
  on_drive m (addr l) w = (Returned (fst (m d)), with_drive l (snd (m d)) w).
Proof. intros Hl. simpl. rewrite Hl. destruct (m d); reflexivity. Qed.

Lemma on_chassis_live {R : Type} (m : Chassis -> R * Chassis) (l : loc) (c : Chassis)
      (w : world) :
  chassis_objs w !! l = Some c ->
  on_chassis m (addr l) w = (Returned (fst (m c)), with_chassis l (snd (m c)) w).
Proof. intros Hl. simpl. rewrite Hl. destruct (m c); reflexivity. Qed.

Lemma with_drive_lookup (l : loc) (d : Drive) (w : world) :
  drives (with_drive l d w) !! l = Some d.
Proof. unfold with_drive. cbn [drives]. apply lookup_insert_eq. Qed.

Lemma with_drive_twice (l : loc) (d d' : Drive) (w : world) :
  with_drive l d' (with_drive l d w) = with_drive l d' w.
Proof. unfold with_drive. cbn [drives chassis_objs]. rewrite insert_insert_eq. reflexivity. Qed.

(** The EZ-Template lambda on a live drive, whatever the accessors do. *)
Lemma ez_run_live (l : loc) (d : Drive) (w : world) :
  drives w !! l = Some d ->
  run (EZTemplate.pose_getter (addr l)) w =
  mkRun (Returned (fst (ez_sample d))) (with_drive l (snd (ez_sample d)) w)
        (ez_sample_calls (addr l) d).
Proof.
  intros Hl. unfold EZTemplate.pose_getter, ez_sample, ez_sample_calls.
  cbn [is_null mbind prog_mbind bind call run perform].
  rewrite (on_drive_live _ _ _ _ Hl).
  destruct (odom_enabled d) as [[ | ] d1]; cbn [fst snd negb mbind prog_mbind bind
    call run perform mret prog_mret rr_outcome rr_world rr_calls]; [ | reflexivity].
  rewrite (on_drive_live odom_x_get l d1 _ (with_drive_lookup l d1 w)).
  destruct (odom_x_get d1) as [xr d2]; cbn [fst snd mbind prog_mbind bind
    call run perform mret prog_mret rr_outcome rr_world rr_calls].
  rewrite with_drive_twice.
  rewrite (on_drive_live odom_y_get l d2 _ (with_drive_lookup l d2 w)).
  destruct (odom_y_get d2) as [yr d3]; cbn [fst snd mbind prog_mbind bind
    call run perform mret prog_mret rr_outcome rr_world rr_calls].
  rewrite with_drive_twice.
  rewrite (on_drive_live odom_theta_get l d3 _ (with_drive_lookup l d3 w)).
  destruct (odom_theta_get d3) as [thr d4]; cbn [fst snd mbind prog_mbind bind
    call run perform mret prog_mret rr_outcome rr_world rr_calls].
  rewrite with_drive_twice. reflexivity.
Qed.

(** The LemLib lambda on a live chassis, whatever [getPose] does. *)
Lemma lemlib_run_live (l : loc) (c : Chassis) (w : world) :
  chassis_objs w !! l = Some c ->
  run (LemLib.pose_getter (addr l)) w =
  mkRun (Returned (Some (lemlib_readings c))) (with_chassis l (snd (getPose c)) w)
        [GetPose (addr l)].
Proof.
  intros Hl. unfold LemLib.pose_getter, lemlib_readings.
  cbn [is_null mbind prog_mbind bind call run perform].
  rewrite (on_chassis_live _ _ _ _ Hl). destruct (getPose c) as [p c']. reflexivity.
Qed.

Lemma same_but_at_refl (chassis : ptr) (w : world) : same_but_at chassis w w.
Proof. repeat split; auto. Qed.

Lemma same_but_at_with_drive (l : loc) (d d' : Drive) (w : world) :
  drives w !! l = Some d -> same_but_at (addr l) w (with_drive l d' w).
Proof.
  intros Hl. unfold same_but_at, with_drive. cbn [drives chassis_objs].
  repeat split; try tauto.
  - destruct (decide (l0 = l)) as [-> | Hne].
    + rewrite Hl. eauto.
    + rewrite lookup_insert_ne by congruence. tauto.
  - destruct (decide (l0 = l)) as [-> | Hne].
    + rewrite lookup_insert_eq. eauto.
    + rewrite lookup_insert_ne by congruence. tauto.
  - intros l' Hne. rewrite lookup_insert_ne by congruence. reflexivity.
Qed.

Lemma same_but_at_with_chassis (l : loc) (c c' : Chassis) (w : world) :
  chassis_objs w !! l = Some c -> same_but_at (addr l) w (with_chassis l c' w).
Proof.
  intros Hl. unfold same_but_at, with_chassis. cbn [drives chassis_objs].
  repeat split; try tauto.
  - destruct (decide (l0 = l)) as [-> | Hne].
    + rewrite Hl. eauto.
    + rewrite lookup_insert_ne by congruence. tauto.
  - destruct (decide (l0 = l)) as [-> | Hne].
    + rewrite lookup_insert_eq. eauto.
    + rewrite lookup_insert_ne by congruence. tauto.
  - intros l' Hne. rewrite lookup_insert_ne by congruence. reflexivity.
Qed.

End LambdasOnAnyBackend.

(** X1: one sample through the EZ-Template lambda of a live drive, for
    accessors that may change the drive: [odom_enabled] is called once; if
    it answers false the result is unavailable and nothing else is called;
    if it answers true, [odom_x_get], [odom_y_get] and [odom_theta_get] are
    called once each, in that order, each on the drive as the call before
    left it, and the Pose holds their three results.  The three fields are
    three successive reads, not one snapshot. *)
Theorem ez_sample_reads_in_sequence `{Backends}
    (logger : Logger) (l : loc) (d : Drive) (w0 w : world) :
  drives w !! l = Some d ->
  installed (run (EZTemplate.setOdom logger (addr l)) w0) (fun capability =>
    run capability w =
    mkRun (Returned (fst (ez_sample d))) (with_drive l (snd (ez_sample d)) w)
          (ez_sample_calls (addr l) d)).
Proof.
  intros Hl. unfold installed. rewrite ez_setOdom_run. cbn [rr_outcome sample m_getPose].
  apply ez_run_live, Hl.
Qed.

Section OnTheMovingRobot.

#[local] Existing Instance Sim.scalars.
#[local] Existing Instance Moving.backends.

(** On the robot that moves between reads, a drive at 10 is sampled as
    Pose{10, 11, 12} and left at 13. *)
Lemma ez_sample_reads_in_sequence_witness :
  let w := Moving.robot 10 0 in
  installed (run (EZTemplate.setOdom (mkLogger None) (addr 1%positive)) w)
    (fun capability =>
       run capability w =
       mkRun (Returned (Some (mkPose (Sim.float_of_Z 10) (Sim.float_of_Z 11)
                                     (Sim.float_of_Z 12))))
             (with_drive 1%positive 13%Z w)
             [OdomEnabled (addr 1%positive); OdomXGet (addr 1%positive);
              OdomYGet (addr 1%positive); OdomThetaGet (addr 1%positive)]).
Proof.
  exact (@ez_sample_reads_in_sequence Sim.scalars Moving.backends (mkLogger None)
           1%positive 10%Z (Moving.robot 10 0) (Moving.robot 10 0) eq_refl).
Defined.

End OnTheMovingRobot.

(** X2: the null check is the only protection of either lambda.  Whatever
    the accessors do, a sample ends in a fault exactly when the handle is
    non-null and leads to no live object; a null handle and a live object
    never fault. *)
Theorem fault_iff_dangling `{Backends} (chassis : ptr) (w : world) :
  (rr_outcome (run (EZTemplate.pose_getter chassis) w) = Fault <->
   exists l, chassis = addr l /\ drives w !! l = None) /\
  (rr_outcome (run (LemLib.pose_getter chassis) w) = Fault <->
   exists l, chassis = addr l /\ chassis_objs w !! l = None).
Proof.
  split; destruct chassis as [ | l].
  - rewrite ez_run_null. cbn. split; [discriminate | intros (l & Hl & _); discriminate].
  - destruct (drives w !! l) as [d | ] eqn:Hl.
    + rewrite (ez_run_live l d w Hl). cbn [rr_outcome].
      split; [discriminate | intros (l' & Heq & Hl'); congruence].
    + rewrite (ez_run_dangling l w Hl). cbn. split; [eauto | reflexivity].
  - rewrite lemlib_run_null. cbn. split; [discriminate | intros (l & Hl & _); discriminate].
  - destruct (chassis_objs w !! l) as [c | ] eqn:Hl.
    + rewrite (lemlib_run_live l c w Hl). cbn [rr_outcome].
      split; [discriminate | intros (l' & Heq & Hl'); congruence].
    + rewrite (lemlib_run_dangling l w Hl). cbn. split; [eauto | reflexivity].
Qed.

(** X3: whatever the accessors do, a sample changes at most the state of
    the one object its handle leads to.  No object appears or disappears,
    every object at another address is as it was, the EZ-Template lambda
    leaves all LemLib chassis alone and the LemLib lambda all EZ-Template
    drives. *)
Theorem sample_touches_only_its_object `{Backends} (chassis : ptr) (w : world) :
  (same_but_at chassis w (rr_world (run (EZTemplate.pose_getter chassis) w)) /\
   chassis_objs (rr_world (run (EZTemplate.pose_getter chassis) w)) = chassis_objs w) /\
  (same_but_at chassis w (rr_world (run (LemLib.pose_getter chassis) w)) /\
   drives (rr_world (run (LemLib.pose_getter chassis) w)) = drives w).
Proof.
  split; destruct chassis as [ | l].
  - rewrite ez_run_null. split; [apply same_but_at_refl | reflexivity].
  - destruct (drives w !! l) as [d | ] eqn:Hl.
    + rewrite (ez_run_live l d w Hl). cbn [rr_world].
      split; [eapply same_but_at_with_drive; eauto | reflexivity].
    + rewrite (ez_run_dangling l w Hl). split; [apply same_but_at_refl | reflexivity].
  - rewrite lemlib_run_null. split; [apply same_but_at_refl | reflexivity].
  - destruct (chassis_objs w !! l) as [c | ] eqn:Hl.
    + rewrite (lemlib_run_live l c w Hl). cbn [rr_world].
      split; [eapply same_but_at_with_chassis; eauto | reflexivity].
    + rewrite (lemlib_run_dangling l w Hl). split; [apply same_but_at_refl | reflexivity].
Qed.

(** * Further properties of the include guard *)

(** X4: the guard accepts a translation unit exactly when all the
    integration headers it includes are one and the same: it never rejects
    a sole integration, however often its header is included, and never
    lets two distinct ones through. *)
Theorem guard_accepts_iff_one_integration (includes : list integration) :
  (exists s, pp_translation_unit includes = PPOk s) <->
  (forall i j, i ∈ includes -> j ∈ includes -> i = j).
Proof.
  pose proof (pp_translation_unit_spec includes) as Hspec.
  destruct (pp_translation_unit includes) as [d | s]; split.
  - intros [s Hs]. discriminate.
  - intros Hall. exfalso. destruct Hspec as (_ & Hin & i & Hi & Hne).
    apply Hne, Hall; assumption.
  - intros _ i j Hi Hj. destruct Hspec as [[Hnil _] | (k & _ & Hall)].
    + rewrite Hnil in Hi. inversion Hi.
    + rewrite (Hall i Hi), (Hall j Hj). reflexivity.
  - eauto.
Qed.

(** X5: including the header of one integration several times in a
    translation unit comes to the same as including it once: the second and
    later includes are skipped under [#pragma once], the unit is accepted,
    the guard macro is defined and [setOdom] is declared exactly once. *)
Theorem repeated_include_is_harmless (includes : list integration) (i : integration) :
  i ∈ includes -> (forall j, j ∈ includes -> j = i) ->
  exists s, pp_translation_unit includes = PPOk s /\
            pp_translation_unit [i] = PPOk s /\
            declared s = [i] /\ guard_set s.
Proof.
  intros Hi Hall. destruct includes as [ | k rest]; [inversion Hi | ].
  assert (k = i) as -> by (apply Hall, elem_of_cons; left; reflexivity).
  unfold pp_translation_unit. cbn [pp_includes].
  destruct (pp_include_first i pp_start) as (s1 & -> & Hg & Honce & Hdecl).
  { cbn. apply not_elem_of_empty. }
  { unfold guard_set. cbn. apply not_elem_of_empty. }
  assert (forall j, j ∈ once s1 <-> j = i) as Hseen.
  { intros j. rewrite Honce. cbn [once pp_start].
    rewrite union_empty_r_L. apply elem_of_singleton. }
  pose proof (pp_includes_claimed i rest s1 Hg Hseen) as Hrest.
  destruct (pp_includes rest s1) as [d | s'].
  - exfalso. destruct Hrest as (_ & Hin & Hne). apply Hne, Hall.
    apply elem_of_cons. right. exact Hin.
  - destruct Hrest as (-> & _). exists s1. repeat split; assumption.
Qed.

Lemma repeated_include_is_harmless_witness :
  exists s, pp_translation_unit [lemlib; lemlib; lemlib] = PPOk s /\
            pp_translation_unit [lemlib] = PPOk s /\
            declared s = [lemlib] /\ guard_set s.
Proof.
  apply (repeated_include_is_harmless [lemlib; lemlib; lemlib] lemlib).
  - apply elem_of_cons. left. reflexivity.
  - intros j Hj. repeat (apply elem_of_cons in Hj as [-> | Hj]; [reflexivity | ]).
    inversion Hj.
Defined.

(** X6: each header refuses to be read whenever the guard macro is already
    defined, whoever defined it: the other integration's header, or the
    translation unit itself before its first include; the [#error] is the
    header's own.  The same holds of the header's own text once it has been
    read: a second include is skipped only because of [#pragma once], and
    would otherwise stop at the header's [#error]. *)
Theorem header_refuses_when_macro_defined (i : integration) (s : pp_state) :
  (guard_set s ->
   pp_directives i (header i) s = PPError (mkDiag i guard_message) /\
   (i ∉ once s -> pp_include i s = PPError (mkDiag i guard_message))) /\
  (exists s1, pp_include i pp_start = PPOk s1 /\
              pp_include i s1 = PPOk s1 /\
              pp_directives i (header i) s1 = PPError (mkDiag i guard_message)).
Proof.
  assert (forall s', guard_set s' ->
            pp_directives i (header i) s' = PPError (mkDiag i guard_message)) as Hread.
  { intros s' Hg. destruct i; cbn [header pp_directives pp_directive defined];
      rewrite decide_True by exact Hg; reflexivity. }
  split.
  - intros Hg. split; [apply Hread, Hg | ].
    intros Hi. apply pp_include_guarded; assumption.
  - destruct (pp_include_first i pp_start) as (s1 & Hs1 & Hg & Honce & _).
    { cbn. apply not_elem_of_empty. }
    { unfold guard_set. cbn. apply not_elem_of_empty. }
    exists s1. split; [exact Hs1 | split; [ | apply Hread, Hg]].
    apply pp_include_seen. rewrite Honce. apply elem_of_union. left.
    apply elem_of_singleton. reflexivity.
Qed.

(** A translation unit that defines the macro itself cannot include even
    one integration. *)
Lemma header_refuses_when_macro_defined_witness :
  pp_directives lemlib (header lemlib) pp_predefined = PPError (mkDiag lemlib guard_message) /\
  pp_include lemlib pp_predefined = PPError (mkDiag lemlib guard_message).
Proof.
  assert (guard_set pp_predefined) as Hg.
  { unfold guard_set, pp_predefined. cbn [defined]. apply elem_of_singleton. reflexivity. }
  destruct (proj1 (header_refuses_when_macro_defined lemlib pp_predefined) Hg)
    as (Hread & Hinc).
  split; [exact Hread | apply Hinc]. cbn [once pp_predefined]. apply not_elem_of_empty.
Defined.

(** X7: when the guard rejects a translation unit, the [#error] is raised
    by the first included header that differs from the first include of the
    unit; everything included before it is the first integration again, and
    the first-included header never reports. *)
Theorem guard_error_location (first : integration) (rest : list integration)
    (d : diagnostic) :
  pp_translation_unit (first :: rest) = PPError d ->
  exists pre post, rest = (pre ++ diag_header d :: post)%list /\
                   (forall j, j ∈ pre -> j = first) /\ diag_header d <> first.
Proof.
  unfold pp_translation_unit. cbn [pp_includes].
  destruct (pp_include_first first pp_start) as (s1 & -> & Hg & Honce & _).
  { cbn. apply not_elem_of_empty. }
  { unfold guard_set. cbn. apply not_elem_of_empty. }
  apply pp_includes_error_location; [exact Hg | ].
  intros j. rewrite Honce. cbn [once pp_start].
  rewrite union_empty_r_L. apply elem_of_singleton.
Qed.

Lemma guard_error_location_witness :
  exists pre post,
    [ez_template; lemlib; ez_template] = (pre ++ lemlib :: post)%list /\
    (forall j, j ∈ pre -> j = ez_template) /\ lemlib <> ez_template.
Proof.
  apply (guard_error_location ez_template [ez_template; lemlib; ez_template]
           (mkDiag lemlib guard_message)).
  vm_compute. reflexivity.
Defined.

(** * The LemLib lambda takes one snapshot *)

(** X8: one sample through the LemLib lambda of a live chassis, whatever
    [getPose] does to the chassis: [getPose()] is called exactly once, the
    three fields of the Pose are the x, y and theta of that one returned
    value, and the chassis is left as that one call left it. *)
Theorem lemlib_sample_is_one_snapshot `{Backends}
    (logger : Logger) (l : loc) (c : Chassis) (w0 w : world) :
  chassis_objs w !! l = Some c ->
  installed (run (LemLib.setOdom logger (addr l)) w0) (fun capability =>
    run capability w =
    mkRun (Returned (Some (mkPose (lemlib_to_pose (lp_x (fst (getPose c))))
                                  (lemlib_to_pose (lp_y (fst (getPose c))))
                                  (lemlib_to_pose (lp_theta (fst (getPose c)))))))
          (with_chassis l (snd (getPose c)) w)
          [GetPose (addr l)]).
Proof.
  intros Hl. unfold installed. rewrite lemlib_setOdom_run.
  cbn [rr_outcome sample m_getPose]. apply lemlib_run_live, Hl.
Qed.

Section OnTheMovingChassis.

#[local] Existing Instance Sim.scalars.
#[local] Existing Instance Moving.backends.

(** On the robot that moves between reads, a chassis at 7 is sampled as
    Pose{7, 7, 7} and left at 8. *)
Lemma lemlib_sample_is_one_snapshot_witness :
  let w := Moving.robot 10 7 in
  installed (run (LemLib.setOdom (mkLogger None) (addr 1%positive)) w)
    (fun capability =>
       run capability w =
       mkRun (Returned (Some (mkPose (Sim.float_of_Z 7) (Sim.float_of_Z 7)
                                     (Sim.float_of_Z 7))))
             (with_chassis 1%positive 8%Z w)
             [GetPose (addr 1%positive)]).
Proof.
  exact (@lemlib_sample_is_one_snapshot Sim.scalars Moving.backends (mkLogger None)
           1%positive 7%Z (Moving.robot 10 7) (Moving.robot 10 7) eq_refl).
Defined.

End OnTheMovingChassis.
